(** * banking-ai-notebooks: environment detection and the loan engine

    Two Python modules are covered.

    - [utils] embeds [src/utils.py]: the process environment [os.environ]
      and the module table [sys.modules] are finite maps keyed by strings,
      and the three detection functions read them.

    - [financial_engine] covers the [FinancialEngine] calculator.  Its
      source file is not part of the checked-in sources (only its tests
      are), so its operations are modelled from the written specification,
      twice: over the rationals [Q], which is the specification's
      real-number reading (every value the operations reach from rational
      inputs is rational), and over binary64 floats
      ([financial_engine_binary64]), which is what the Python engine
      computes with.  The exact model carries the algebraic laws; the
      binary64 model shows where rounding, absorption and underflow break
      them.  Throughout, [==] is equality of rational numbers and [=] is
      syntactic equality. *)

From Stdlib Require Import ZArith QArith Qpower Qabs Qfield Lia Lqa List.
From stdpp Require Import base strings gmap.
From Stdlib Require Import Ascii.
From Stdlib Require Floats Uint63.

(* ===================================================================== *)
(** * [src/utils.py] *)
(* ===================================================================== *)

Module utils.

Section detection.

(** What [sys.modules] stores for a loaded module is irrelevant here:
    only the keys are inspected. *)
Context {module : Type}.

(** [os.environ] and [sys.modules], the two pieces of interpreter state
    the functions look at. *)
Implicit Types (environ : gmap string string) (modules : gmap string module).

(** [return "KAGGLE_KERNEL_RUN_TYPE" in os.environ] *)
Definition is_kaggle environ : bool :=
  bool_decide (is_Some (environ !! "KAGGLE_KERNEL_RUN_TYPE")).

(** [return "COLAB_GPU" in os.environ or "google.colab" in sys.modules] *)
Definition is_colab environ modules : bool :=
  bool_decide (is_Some (environ !! "COLAB_GPU"))
  || bool_decide (is_Some (modules !! "google.colab")).

(** The [if] / [elif] / [else] chain of [get_environment]. *)
Definition get_environment environ modules : string :=
  if is_kaggle environ then "kaggle"
  else if is_colab environ modules then "colab"
  else "local".

End detection.

End utils.

(** ** Paths, the import path and the output directory *)

(** The part of [pathlib] and of the file system that [src/utils.py] calls:
    [Path(s)], [p / s], [p.parent], [str(p)] and
    [p.mkdir(parents=True, exist_ok=True)].  The functions are embedded
    over any implementation of these five operations. *)
Class Pathlib (Path Disk : Type) : Type := {
  path_of : string -> Path;
  truediv : Path -> string -> Path;
  parent : Path -> Path;
  path_str : Path -> string;
  mkdir_parents : Path -> Disk -> Disk
}.

Module utils_paths.

Import utils.

(** The values stored in the dictionary [setup_environment] returns. *)
Inductive value (Path : Type) : Type :=
  | VStr (s : string)
  | VBool (b : bool)
  | VPath (p : Path).

Arguments VStr {Path} s.
Arguments VBool {Path} b.
Arguments VPath {Path} p.

(** The interpreter state [setup_environment] writes to: [sys.path], the
    lines printed so far, and the directories on disk. *)
Record interpreter (Disk : Type) : Type := {
  sys_path : list string;
  stdout : list string;
  disk : Disk
}.

Arguments sys_path {Disk} _.
Arguments stdout {Disk} _.
Arguments disk {Disk} _.

Section paths.

Context {module Path Disk : Type} `{!Pathlib Path Disk}.

(** [__file__] of [src/utils.py]. *)
Variable module_file : string.

Implicit Types (environ : gmap string string) (modules : gmap string module).
Implicit Types (filename : string).

(** [base / filename if filename else base]: an empty string is falsy. *)
Definition with_filename (base : Path) filename : Path :=
  if bool_decide (filename = "") then base else truediv base filename.

(** The three-way choice of the base directory in [get_data_path]. *)
Definition data_base environ modules : Path :=
  if is_kaggle environ then path_of "/kaggle/input"
  else if is_colab environ modules then path_of "/content/drive/MyDrive/data"
  else truediv (parent (parent (path_of module_file))) "data".

Definition get_data_path environ modules filename : Path :=
  with_filename (data_base environ modules) filename.

(** The three-way choice of the base directory in [get_output_path]. *)
Definition output_base environ modules : Path :=
  if is_kaggle environ then path_of "/kaggle/working"
  else if is_colab environ modules then path_of "/content"
  else truediv (parent (parent (path_of module_file))) "output".

(** [get_output_path] also creates the base directory when neither
    detection function answers; the disk is threaded through. *)
Definition get_output_path environ modules filename (d : Disk) : Path * Disk :=
  let base := output_base environ modules in
  let d' :=
    if negb (is_kaggle environ) && negb (is_colab environ modules)
    then mkdir_parents base d
    else d in
  (with_filename base filename, d').

(** [setup_environment]: print the environment, extend [sys.path] when
    local, then build the dictionary, whose values are evaluated in the
    order they are written. *)
Definition setup_environment environ modules (w : interpreter Disk)
  : gmap string (value Path) * interpreter Disk :=
  let env_name := get_environment environ modules in
  let out := stdout w ++ [String.append "Environment: " env_name] in
  let path :=
    if bool_decide (env_name = "local") then
      let src_path := parent (path_of module_file) in
      if bool_decide (path_str src_path ∈ sys_path w) then sys_path w
      else path_str (parent src_path) :: sys_path w
    else sys_path w in
  let data_path := get_data_path environ modules "" in
  let '(output_path, d') := get_output_path environ modules "" (disk w) in
  (<["name" := VStr env_name]>
     (<["is_kaggle" := VBool (is_kaggle environ)]>
        (<["is_colab" := VBool (is_colab environ modules)]>
           (<["data_path" := VPath data_path]>
              (<["output_path" := VPath output_path]> ∅)))),
   {| sys_path := path; stdout := out; disk := d' |}).

End paths.

End utils_paths.

(** ** A concrete [pathlib]: pure POSIX paths

    A path is a root ([""], ["/"] or ["//"]) and its components.  Parsing
    drops empty and ["."] components; joining with an absolute segment
    discards the left operand.  The disk is the set of directories that
    exist, named by their strings. *)
Module posix.

Record PurePath : Type := { root : string; parts : list string }.

(** Split at ["/"], keeping empty pieces. *)
Fixpoint split_slash (piece s : string) : list string :=
  match s with
  | EmptyString => [piece]
  | String "/"%char rest => piece :: split_slash "" rest
  | String c rest => split_slash (String.append piece (String c "")) rest
  end.

Definition root_of (s : string) : string :=
  match s with
  | String "/"%char (String "/"%char (String "/"%char _)) => "/"
  | String "/"%char (String "/"%char _) => "//"
  | String "/"%char _ => "/"
  | _ => ""
  end.

Definition of_string (s : string) : PurePath :=
  {| root := root_of s;
     parts := filter (fun piece => piece <> "" /\ piece <> ".") (split_slash "" s) |}.

Definition join (p : PurePath) (s : string) : PurePath :=
  let q := of_string s in
  if bool_decide (root q = "") then {| root := root p; parts := parts p ++ parts q |}
  else q.

Definition dirname (p : PurePath) : PurePath :=
  {| root := root p; parts := removelast (parts p) |}.

Fixpoint join_parts (l : list string) : string :=
  match l with
  | [] => ""
  | [x] => x
  | x :: rest => String.append x (String.append "/" (join_parts rest))
  end.

Definition to_string (p : PurePath) : string :=
  match parts p with
  | [] => if bool_decide (root p = "") then "." else root p
  | _ => String.append (root p) (join_parts (parts p))
  end.

(** The path itself and every ancestor, as [mkdir(parents=True)] creates. *)
Definition lineage (p : PurePath) : list PurePath :=
  (fun k => {| root := root p; parts := take k (parts p) |})
    <$> seq 0 (S (length (parts p))).

Definition mkdir (p : PurePath) (d : gset string) : gset string :=
  d ∪ list_to_set (to_string <$> lineage p).

#[export] Instance posix_pathlib : Pathlib PurePath (gset string) := {|
  path_of := of_string;
  truediv := join;
  parent := dirname;
  path_str := to_string;
  mkdir_parents := mkdir
|}.

End posix.

(* ===================================================================== *)
(** * The loan engine *)
(* ===================================================================== *)

Module financial_engine.

Local Open Scope Q_scope.

(** ** Errors and the error monad *)

(** The error taxonomy of the specification, plus the fault of dividing by
    zero, which the zero-rate branches exist to avoid. *)
Inductive Error : Type :=
  | InvalidTerm
  | InvalidRate
  | InvalidPrincipal
  | DivisionByZero.

Inductive result (A : Type) : Type :=
  | Ok (a : A)
  | Err (e : Error).

Arguments Ok {A} a.
Arguments Err {A} e.

Definition bind {A B : Type} (m : result A) (k : A -> result B) : result B :=
  match m with
  | Ok a => k a
  | Err e => Err e
  end.

Notation "'do' x <- m ; k" := (bind m (fun x => k))
  (at level 10, x name, m at level 100, k at level 200,
   format "'[v' 'do'  x  <-  m ; '/' k ']'").
Notation "'ensure' m ; k" := (bind m (fun _ : unit => k))
  (at level 10, m at level 100, k at level 200,
   format "'[v' 'ensure'  m ; '/' k ']'").

(** Run a fallible function over a list, left to right, stopping at the
    first error. *)
Fixpoint mapM {A B : Type} (f : A -> result B) (l : list A) : result (list B) :=
  match l with
  | [] => Ok []
  | x :: xs => do y <- f x; do ys <- mapM f xs; Ok (y :: ys)
  end.

(** ** Input validation *)

Definition Qltb (a b : Q) : bool := negb (Qle_bool b a).

(** Modelled from the spec: the validation of section 7, for which the
    sources hold no function.  "[InvalidTerm]: [periods <= 0] - fatal,
    surfaced immediately, no computation attempted." *)
Definition check_term (periods : Z) : result unit :=
  if (periods <=? 0)%Z then Err InvalidTerm else Ok tt.

(** Modelled from the spec: "[InvalidRate]/[InvalidPrincipal]: negative
    [rate] or negative [principal] - fatal, surfaced immediately." *)
Definition check_rate (rate : Q) : result unit :=
  if Qltb rate 0 then Err InvalidRate else Ok tt.

(** Modelled from the spec: the [InvalidPrincipal] half of the same
    sentence. *)
Definition check_principal (principal : Q) : result unit :=
  if Qltb principal 0 then Err InvalidPrincipal else Ok tt.

(** Modelled from the spec: the three checks in the order section 7 lists
    them.  The specification notes that the source defines no behaviour
    for negative inputs; the theorems below only use loans that pass. *)
Definition check_loan (principal rate : Q) (periods : Z) : result unit :=
  ensure check_term periods;
  ensure check_rate rate;
  check_principal principal.

(** Division faults on a zero divisor instead of returning a number. *)
Definition qdiv (a b : Q) : result Q :=
  if Qeq_bool b 0 then Err DivisionByZero else Ok (a / b).

(** ** The six operations *)

(** Modelled from the spec: [FinancialEngine.payment], whose source file
    is missing.  "If [rate == 0]: result = [principal / periods] ...  Else:
    [payment = principal * rate / (1 - (1 + rate) ** -periods)]", preceded
    by the validation of section 7. *)
Definition payment (principal rate : Q) (periods : Z) : result Q :=
  ensure check_loan principal rate periods;
  if Qeq_bool rate 0 then qdiv principal (inject_Z periods)
  else qdiv (principal * rate) (1 - (1 + rate) ^ (- periods)).

(** Modelled from the spec: [FinancialEngine.max_principal], whose source
    file is missing.  "If [rate == 0]: result = [payment * periods].  Else:
    [principal = payment * (1 - (1 + rate) ** -periods) / rate]."  The
    operation has no principal argument, so only the term and the rate are
    validated. *)
Definition max_principal (pmt rate : Q) (periods : Z) : result Q :=
  ensure check_term periods;
  ensure check_rate rate;
  if Qeq_bool rate 0 then Ok (pmt * inject_Z periods)
  else qdiv (pmt * (1 - (1 + rate) ^ (- periods))) rate.

(** Modelled from the spec: [FinancialEngine.remaining_balance], whose
    source file is missing.  "If [rate == 0]:
    [principal - payment(principal, rate, periods) * period].  Else:
    [principal * (1+rate)**period
       - payment(principal, rate, periods) * (((1+rate)**period - 1) / rate)]." *)
Definition remaining_balance (principal rate : Q) (period periods : Z) : result Q :=
  ensure check_loan principal rate periods;
  do pmt <- payment principal rate periods;
  if Qeq_bool rate 0 then Ok (principal - pmt * inject_Z period)
  else
    do growth <- qdiv ((1 + rate) ^ period - 1) rate;
    Ok (principal * (1 + rate) ^ period - pmt * growth).

(** Modelled from the spec: [FinancialEngine.interest_payment], whose
    source file is missing.  "Defined as
    [remaining_balance(principal, rate, period - 1, periods) * rate].
    If [rate == 0]: always [0]." *)
Definition interest_payment (principal rate : Q) (period periods : Z) : result Q :=
  ensure check_loan principal rate periods;
  if Qeq_bool rate 0 then Ok 0
  else
    do before <- remaining_balance principal rate (period - 1) periods;
    Ok (before * rate).

(** Modelled from the spec: [FinancialEngine.principal_payment], whose
    source file is missing.  "Defined as [payment(principal, rate, periods)
    - interest_payment(principal, rate, period, periods)]." *)
Definition principal_payment (principal rate : Q) (period periods : Z) : result Q :=
  ensure check_loan principal rate periods;
  do pmt <- payment principal rate periods;
  do interest <- interest_payment principal rate period periods;
  Ok (pmt - interest).

(** One line of the schedule. *)
Record AmortizationRow : Type := {
  month : Z;
  row_payment : Q;
  row_principal : Q;
  row_interest : Q;
  row_balance : Q
}.

(** Modelled from the spec: one row of [FinancialEngine.amortization_table],
    whose source file is missing.  "Row [i] (1-based): [payment] is the
    constant periodic payment; [principal]/[interest] are that period's
    decomposition; [balance] is [remaining_balance] after that period", and
    the last row's balance is forced to the exact zero value. *)
Definition table_row (principal rate : Q) (periods i : Z) : result AmortizationRow :=
  do pmt <- payment principal rate periods;
  do princ <- principal_payment principal rate i periods;
  do interest <- interest_payment principal rate i periods;
  do after <- remaining_balance principal rate i periods;
  Ok {| month := i;
        row_payment := pmt;
        row_principal := princ;
        row_interest := interest;
        row_balance := if (i =? periods)%Z then 0 else after |}.

(** Modelled from the spec: [FinancialEngine.amortization_table], whose
    source file is missing.  One row per period [1 .. periods], in
    ascending order. *)
Definition amortization_table (principal rate : Q) (periods : Z)
  : result (list AmortizationRow) :=
  ensure check_loan principal rate periods;
  mapM (table_row principal rate periods) (seqZ 1 periods).

(** Sum of a column, as [table["principal"].sum()] computes it. *)
Definition column_sum (column : list Q) : Q := fold_right Qplus 0 column.

(** ** The numbers behind the operations

    What each operation returns on a loan that passes validation, written
    without the error plumbing.  The theorems below first show that the
    operations return exactly these values, then reason about the values. *)

Definition payment_value (principal rate : Q) (periods : Z) : Q :=
  if Qeq_bool rate 0 then principal / inject_Z periods
  else principal * rate / (1 - (1 + rate) ^ (- periods)).

Definition balance_value (principal rate : Q) (periods period : Z) : Q :=
  if Qeq_bool rate 0
  then principal - payment_value principal rate periods * inject_Z period
  else principal * (1 + rate) ^ period
       - payment_value principal rate periods * (((1 + rate) ^ period - 1) / rate).

Definition interest_value (principal rate : Q) (periods period : Z) : Q :=
  if Qeq_bool rate 0 then 0
  else balance_value principal rate periods (period - 1) * rate.

Definition principal_value (principal rate : Q) (periods period : Z) : Q :=
  payment_value principal rate periods - interest_value principal rate periods period.

Definition row_value (principal rate : Q) (periods i : Z) : AmortizationRow :=
  {| month := i;
     row_payment := payment_value principal rate periods;
     row_principal := principal_value principal rate periods i;
     row_interest := interest_value principal rate periods i;
     row_balance :=
       if (i =? periods)%Z then 0 else balance_value principal rate periods i |}.

(** A loan the validation accepts. *)
Definition valid_loan (principal rate : Q) (periods : Z) : Prop :=
  0 <= principal /\ 0 <= rate /\ (1 <= periods)%Z.

End financial_engine.

(* ===================================================================== *)
(** * The loan engine in binary64 *)
(* ===================================================================== *)

(** The same operations, with Python's [float] as IEEE binary64 and its
    [int] as [Z].  Errors, [bind] and [mapM] are those of the exact
    model. *)
Module financial_engine_binary64.

Import Floats.
Import financial_engine.

Local Open Scope float_scope.

(** An [int] used in float arithmetic is converted to the nearest float
    (exact below [2 ^ 53]). *)
Definition float_of_int (z : Z) : float :=
  match z with
  | Z0 => 0
  | Zpos _ => PrimFloat.of_uint63 (Uint63.of_Z z)
  | Zneg p => - PrimFloat.of_uint63 (Uint63.of_Z (Zpos p))
  end.

(** [x ** n] for a float [x] and an [int] [n], by repeated multiplication
    and one reciprocal when [n] is negative.  Python calls the C library's
    [pow]; the two agree wherever the power, or its reciprocal, is a
    binary64 value, and differ by rounding in the last place elsewhere. *)
Definition float_pow (x : float) (n : Z) : float :=
  match n with
  | Z0 => 1
  | Zpos p => Pos.iter (fun acc => acc * x) 1 p
  | Zneg p => 1 / Pos.iter (fun acc => acc * x) 1 p
  end.

(** Modelled from the spec: the validation of section 7, on floats. *)
Definition check_loan (principal rate : float) (periods : Z) : result unit :=
  ensure check_term periods;
  ensure (if rate <? 0 then Err InvalidRate else Ok tt);
  if principal <? 0 then Err InvalidPrincipal else Ok tt.

(** Python raises [ZeroDivisionError] on a zero divisor. *)
Definition fdiv (a b : float) : result float :=
  if b =? 0 then Err DivisionByZero else Ok (a / b).

(** Modelled from the spec: [FinancialEngine.payment], whose source file
    is missing, in binary64.  "If [rate == 0]: result =
    [principal / periods] ...  Else:
    [payment = principal * rate / (1 - (1 + rate) ** -periods)]". *)
Definition payment (principal rate : float) (periods : Z) : result float :=
  ensure check_loan principal rate periods;
  if rate =? 0 then fdiv principal (float_of_int periods)
  else fdiv (principal * rate) (1 - float_pow (1 + rate) (- periods)).

(** Modelled from the spec: [FinancialEngine.max_principal], whose source
    file is missing, in binary64.  "If [rate == 0]: result =
    [payment * periods].  Else:
    [principal = payment * (1 - (1 + rate) ** -periods) / rate]." *)
Definition max_principal (pmt rate : float) (periods : Z) : result float :=
  ensure check_term periods;
  ensure (if rate <? 0 then Err InvalidRate else Ok tt);
  if rate =? 0 then Ok (pmt * float_of_int periods)
  else fdiv (pmt * (1 - float_pow (1 + rate) (- periods))) rate.

(** Modelled from the spec: [FinancialEngine.remaining_balance], whose
    source file is missing, in binary64.  "If [rate == 0]:
    [principal - payment(principal, rate, periods) * period].  Else:
    [principal * (1+rate)**period
       - payment(principal, rate, periods) * (((1+rate)**period - 1) / rate)]." *)
Definition remaining_balance (principal rate : float) (period periods : Z)
  : result float :=
  ensure check_loan principal rate periods;
  do pmt <- payment principal rate periods;
  if rate =? 0 then Ok (principal - pmt * float_of_int period)
  else
    do growth <- fdiv (float_pow (1 + rate) period - 1) rate;
    Ok (principal * float_pow (1 + rate) period - pmt * growth).

(** Modelled from the spec: [FinancialEngine.interest_payment], whose
    source file is missing, in binary64.  "Defined as
    [remaining_balance(principal, rate, period - 1, periods) * rate].
    If [rate == 0]: always [0]." *)
Definition interest_payment (principal rate : float) (period periods : Z)
  : result float :=
  ensure check_loan principal rate periods;
  if rate =? 0 then Ok 0
  else
    do before <- remaining_balance principal rate (period - 1) periods;
    Ok (before * rate).

(** Modelled from the spec: [FinancialEngine.principal_payment], whose
    source file is missing, in binary64.  "Defined as
    [payment(principal, rate, periods)
     - interest_payment(principal, rate, period, periods)]." *)
Definition principal_payment (principal rate : float) (period periods : Z)
  : result float :=
  ensure check_loan principal rate periods;
  do pmt <- payment principal rate periods;
  do interest <- interest_payment principal rate period periods;
  Ok (pmt - interest).

(** One line of the schedule, in floats. *)
Record FloatRow : Type := {
  float_month : Z;
  float_payment : float;
  float_principal : float;
  float_interest : float;
  float_balance : float
}.

(** Modelled from the spec: one row of [FinancialEngine.amortization_table],
    whose source file is missing, in binary64; the last row's balance is
    forced to zero. *)
Definition table_row (principal rate : float) (periods i : Z) : result FloatRow :=
  do pmt <- payment principal rate periods;
  do princ <- principal_payment principal rate i periods;
  do interest <- interest_payment principal rate i periods;
  do after <- remaining_balance principal rate i periods;
  Ok {| float_month := i;
        float_payment := pmt;
        float_principal := princ;
        float_interest := interest;
        float_balance := if (i =? periods)%Z then 0 else after |}.

(** Modelled from the spec: [FinancialEngine.amortization_table], whose
    source file is missing, in binary64. *)
Definition amortization_table (principal rate : float) (periods : Z)
  : result (list FloatRow) :=
  ensure check_loan principal rate periods;
  mapM (table_row principal rate periods) (seqZ 1 periods).

(** Sum of a column, first element first, starting from zero: the order in
    which a column of fewer than eight floats is added up. *)
Definition column_sum (column : list float) : float :=
  fold_left PrimFloat.add column 0.

End financial_engine_binary64.

(* ===================================================================== *)
(** * Properties of [src/utils.py] *)
(* ===================================================================== *)

Module utils_spec.

Import utils.

(** C10: whatever the environment variables and the loaded modules are,
    [get_environment] returns one of ["kaggle"], ["colab"], ["local"]; and
    when [KAGGLE_KERNEL_RUN_TYPE] is set it returns ["kaggle"], whether or
    not the Colab indicators are present too. *)
Theorem get_environment_kaggle_first {module : Type}
    (environ : gmap string string) (modules : gmap string module) :
  (get_environment environ modules = "kaggle"
   \/ get_environment environ modules = "colab"
   \/ get_environment environ modules = "local")
  /\ (is_Some (environ !! "KAGGLE_KERNEL_RUN_TYPE") ->
      get_environment environ modules = "kaggle").
Proof.
  unfold get_environment, is_kaggle. split.
  - destruct (bool_decide _); [auto|].
    destruct (is_colab environ modules); auto.
  - intros Hset. rewrite bool_decide_eq_true_2 by exact Hset. reflexivity.
Qed.

(** A process with the Kaggle variable and both Colab indicators. *)
Lemma get_environment_kaggle_first_witness :
  is_Some (({["KAGGLE_KERNEL_RUN_TYPE" := "Interactive"; "COLAB_GPU" := "1"]}
              : gmap string string) !! "KAGGLE_KERNEL_RUN_TYPE")
  /\ get_environment
       ({["KAGGLE_KERNEL_RUN_TYPE" := "Interactive"; "COLAB_GPU" := "1"]}
          : gmap string string)
       ({["google.colab" := tt]} : gmap string unit) = "kaggle".
Proof.
  assert (Hset : is_Some
    (({["KAGGLE_KERNEL_RUN_TYPE" := "Interactive"; "COLAB_GPU" := "1"]}
        : gmap string string) !! "KAGGLE_KERNEL_RUN_TYPE")).
  { exists "Interactive". vm_compute. reflexivity. }
  split; [exact Hset|].
  exact (proj2 (get_environment_kaggle_first _ _) Hset).
Defined.

End utils_spec.

(* ===================================================================== *)
(** * More of [src/utils.py]: detection, paths and [setup_environment] *)
(* ===================================================================== *)

Module utils_paths_spec.

Import utils utils_paths.

Section detection_facts.

Context {module : Type}.
Implicit Types (environ : gmap string string) (modules : gmap string module).

Lemma is_kaggle_true environ :
  is_kaggle environ = true <-> is_Some (environ !! "KAGGLE_KERNEL_RUN_TYPE").
Proof. unfold is_kaggle. apply bool_decide_eq_true. Qed.

Lemma is_colab_true environ modules :
  is_colab environ modules = true
  <-> is_Some (environ !! "COLAB_GPU") \/ is_Some (modules !! "google.colab").
Proof.
  unfold is_colab. rewrite orb_true_iff, !bool_decide_eq_true. reflexivity.
Qed.

(** The answer of [get_environment] in terms of the two detection
    functions. *)
Lemma get_environment_flags environ modules :
  (get_environment environ modules = "kaggle" <-> is_kaggle environ = true)
  /\ (get_environment environ modules = "colab"
      <-> is_kaggle environ = false /\ is_colab environ modules = true)
  /\ (get_environment environ modules = "local"
      <-> is_kaggle environ = false /\ is_colab environ modules = false).
Proof.
  unfold get_environment.
  destruct (is_kaggle environ), (is_colab environ modules);
    repeat split; intros; try discriminate; try reflexivity;
    match goal with H : _ /\ _ |- _ => destruct H; discriminate end.
Qed.

(** X1: [get_environment] answers ["local"] exactly when none of the three
    indicators is present, ["colab"] exactly when the Kaggle variable is
    absent and a Colab indicator is present, and ["kaggle"] exactly when
    the Kaggle variable is present. *)
Theorem get_environment_characterised environ modules :
  (get_environment environ modules = "kaggle"
   <-> is_Some (environ !! "KAGGLE_KERNEL_RUN_TYPE"))
  /\ (get_environment environ modules = "colab"
      <-> environ !! "KAGGLE_KERNEL_RUN_TYPE" = None
          /\ (is_Some (environ !! "COLAB_GPU")
              \/ is_Some (modules !! "google.colab")))
  /\ (get_environment environ modules = "local"
      <-> environ !! "KAGGLE_KERNEL_RUN_TYPE" = None
          /\ environ !! "COLAB_GPU" = None
          /\ modules !! "google.colab" = None).
Proof.
  destruct (get_environment_flags environ modules) as (Hk & Hc & Hl).
  rewrite Hk, Hc, Hl. clear Hk Hc Hl.
  rewrite <- !not_true_iff_false, !is_kaggle_true, is_colab_true.
  rewrite <- !eq_None_not_Some.
  repeat split; try tauto.
  - apply eq_None_not_Some. tauto.
  - apply eq_None_not_Some. tauto.
  - intros [[x Hx] | [x Hx]]; destruct H as (_ & Hg & Hm); congruence.
Qed.

(** X2: an environment variable other than [KAGGLE_KERNEL_RUN_TYPE] and
    [COLAB_GPU] never changes the answer, whether it is set or removed. *)
Theorem get_environment_other_variable environ modules (name val : string) :
  name <> "KAGGLE_KERNEL_RUN_TYPE" ->
  name <> "COLAB_GPU" ->
  get_environment (<[name := val]> environ) modules
  = get_environment environ modules
  /\ get_environment (delete name environ) modules
     = get_environment environ modules.
Proof.
  intros Hk Hc. unfold get_environment, is_kaggle, is_colab.
  rewrite !lookup_insert_ne, !lookup_delete_ne by congruence.
  split; reflexivity.
Qed.

End detection_facts.

(** Setting [PATH] on a Colab machine, or removing it. *)
Lemma get_environment_other_variable_witness :
  get_environment (<["PATH" := "/usr/bin"]> {["COLAB_GPU" := "1"]})
                  (∅ : gmap string unit)
  = get_environment ({["COLAB_GPU" := "1"]} : gmap string string)
                    (∅ : gmap string unit)
  /\ get_environment (delete "PATH" {["COLAB_GPU" := "1"]})
                     (∅ : gmap string unit)
     = get_environment ({["COLAB_GPU" := "1"]} : gmap string string)
                       (∅ : gmap string unit).
Proof. apply get_environment_other_variable; discriminate. Defined.

Section path_facts.

Context {module Path Disk : Type} `{!Pathlib Path Disk}.
Variable module_file : string.
Implicit Types (environ : gmap string string) (modules : gmap string module).
Implicit Types (filename : string) (d : Disk) (w : interpreter Disk).

(** Off local, the condition guarding [mkdir] is false. *)
Lemma mkdir_guard_off_local environ modules :
  get_environment environ modules <> "local" ->
  negb (is_kaggle environ) && negb (is_colab environ modules) = false.
Proof.
  unfold get_environment.
  destruct (is_kaggle environ); [reflexivity|].
  destruct (is_colab environ modules); [reflexivity|].
  intros Hne. exfalso. apply Hne. reflexivity.
Qed.

(** Equal answers of [get_environment] mean equal detection outcomes, as
    far as the path functions look at them. *)
Lemma same_environment_same_branch environ modules environ' modules' :
  get_environment environ modules = get_environment environ' modules' ->
  is_kaggle environ = is_kaggle environ'
  /\ (is_kaggle environ = false ->
      is_colab environ modules = is_colab environ' modules').
Proof.
  unfold get_environment.
  destruct (is_kaggle environ), (is_kaggle environ'),
    (is_colab environ modules), (is_colab environ' modules');
    intros Heq; try discriminate; split; intros; reflexivity || discriminate.
Qed.

(** X3: the two path functions look at the process only through the answer
    of [get_environment]: two processes with the same answer get the same
    data path, the same output path and the same effect on the disk. *)
Theorem paths_follow_environment
    environ modules environ' modules' filename d :
  get_environment environ modules = get_environment environ' modules' ->
  get_data_path module_file environ modules filename
  = get_data_path module_file environ' modules' filename
  /\ get_output_path module_file environ modules filename d
     = get_output_path module_file environ' modules' filename d.
Proof.
  intros Heq.
  destruct (same_environment_same_branch _ _ _ _ Heq) as (Hk & Hc).
  unfold get_data_path, get_output_path, data_base, output_base.
  rewrite <- Hk. destruct (is_kaggle environ); [split; reflexivity|].
  rewrite <- Hc by reflexivity. split; reflexivity.
Qed.

(** X4: on Kaggle and on Colab [get_output_path] leaves the disk as it
    is; only a local run creates a directory. *)
Theorem get_output_path_keeps_disk environ modules filename d :
  get_environment environ modules <> "local" ->
  snd (get_output_path module_file environ modules filename d) = d.
Proof.
  intros Hne. unfold get_output_path. simpl.
  rewrite mkdir_guard_off_local by exact Hne. reflexivity.
Qed.

(** X5: with a non-empty file name, each path function returns the
    directory it returns without a file name, joined with that name; and
    what [get_output_path] does to the disk does not depend on the name:
    it is the directory that is created, never a directory named after
    the file. *)
Theorem filename_joined_to_directory environ modules filename d :
  filename <> "" ->
  get_data_path module_file environ modules filename
  = truediv (get_data_path module_file environ modules "") filename
  /\ fst (get_output_path module_file environ modules filename d)
     = truediv (fst (get_output_path module_file environ modules "" d)) filename
  /\ snd (get_output_path module_file environ modules filename d)
     = snd (get_output_path module_file environ modules "" d).
Proof.
  intros Hname. unfold get_data_path, get_output_path, with_filename. simpl.
  rewrite bool_decide_eq_false_2 by exact Hname.
  repeat split; reflexivity.
Qed.

(** X6: the dictionary [setup_environment] returns has exactly the five
    documented keys; its flags agree with its name (["kaggle"] iff
    [is_kaggle], ["colab"] iff [is_colab] without [is_kaggle], ["local"]
    iff neither); and the line printed names the same environment. *)
Theorem setup_environment_report environ modules w :
  let '(report, w') := setup_environment module_file environ modules w in
  dom report
  = ({["name"; "is_kaggle"; "is_colab"; "data_path"; "output_path"]} : gset string)
  /\ exists (name : string) (kaggle colab : bool),
      report !! "name" = Some (VStr name)
      /\ report !! "is_kaggle" = Some (VBool kaggle)
      /\ report !! "is_colab" = Some (VBool colab)
      /\ (name = "kaggle" <-> kaggle = true)
      /\ (name = "colab" <-> kaggle = false /\ colab = true)
      /\ (name = "local" <-> kaggle = false /\ colab = false)
      /\ stdout w' = stdout w ++ [String.append "Environment: " name].
Proof.
  unfold setup_environment, get_output_path. simpl. split.
  - rewrite !dom_insert_L, dom_empty_L. set_solver.
  - exists (get_environment environ modules), (is_kaggle environ),
      (is_colab environ modules).
    split; [apply lookup_insert_eq|].
    split; [rewrite lookup_insert_ne by discriminate; apply lookup_insert_eq|].
    split; [rewrite !lookup_insert_ne by discriminate; apply lookup_insert_eq|].
    destruct (get_environment_flags environ modules) as (Hk & Hc & Hl).
    split; [exact Hk|]. split; [exact Hc|]. split; [exact Hl|]. reflexivity.
Qed.

(** X7: on Kaggle and on Colab [setup_environment] changes nothing but the
    output: [sys.path] and the disk stay as they were. *)
Theorem setup_environment_off_local environ modules w :
  get_environment environ modules <> "local" ->
  sys_path (snd (setup_environment module_file environ modules w)) = sys_path w
  /\ disk (snd (setup_environment module_file environ modules w)) = disk w.
Proof.
  intros Hne. unfold setup_environment, get_output_path. simpl.
  rewrite bool_decide_eq_false_2 by exact Hne.
  rewrite mkdir_guard_off_local by exact Hne. split; reflexivity.
Qed.

(** What one call does to [sys.path] on a local run. *)
Lemma setup_environment_sys_path_local environ modules w :
  get_environment environ modules = "local" ->
  sys_path (snd (setup_environment module_file environ modules w))
  = if bool_decide (path_str (parent (path_of module_file)) ∈ sys_path w)
    then sys_path w
    else path_str (parent (parent (path_of module_file))) :: sys_path w.
Proof.
  intros Hlocal. unfold setup_environment, get_output_path. simpl.
  rewrite bool_decide_eq_true_2 by exact Hlocal. reflexivity.
Qed.

(** X8: [setup_environment] only ever adds to the front of [sys.path], at
    most one entry, and keeps every earlier entry in place; when the
    directory of [utils.py] is already listed it adds nothing. *)
Theorem setup_environment_extends_sys_path environ modules w :
  (exists front : list string,
      sys_path (snd (setup_environment module_file environ modules w))
      = front ++ sys_path w
      /\ (length front <= 1)%nat)
  /\ (path_str (parent (path_of module_file)) ∈ sys_path w ->
      sys_path (snd (setup_environment module_file environ modules w))
      = sys_path w).
Proof.
  unfold setup_environment, get_output_path. simpl. split.
  - repeat case_bool_decide;
      first [ exists []; split; [reflexivity | simpl; lia]
            | eexists [_]; split; [reflexivity | simpl; lia] ].
  - intros Hin. rewrite (bool_decide_eq_true_2 _ Hin).
    destruct (bool_decide _); reflexivity.
Qed.

(** X9: the test before the insertion looks for the directory of
    [utils.py], but what is inserted is that directory's parent.  So on a
    local run where the directory is not listed (and differs from its
    parent), a second call inserts the parent a second time. *)
Theorem setup_environment_twice_inserts_twice environ modules w :
  get_environment environ modules = "local" ->
  path_str (parent (path_of module_file)) ∉ sys_path w ->
  path_str (parent (path_of module_file))
    <> path_str (parent (parent (path_of module_file))) ->
  sys_path
    (snd (setup_environment module_file environ modules
            (snd (setup_environment module_file environ modules w))))
  = path_str (parent (parent (path_of module_file)))
      :: path_str (parent (parent (path_of module_file))) :: sys_path w.
Proof.
  intros Hlocal Hout Hne.
  rewrite !setup_environment_sys_path_local by exact Hlocal.
  rewrite (bool_decide_eq_false_2 _ Hout).
  rewrite bool_decide_eq_false_2; [reflexivity|].
  rewrite elem_of_cons. intros [Heq | Hin]; [exact (Hne Heq) | exact (Hout Hin)].
Qed.

End path_facts.

(** The witnesses run the functions on pure POSIX paths, with [utils.py] at
    [/proj/src/utils.py], no module table entries unless stated, and the
    disk as a set of directory names. *)

Import posix.

Local Abbreviation data_path_at :=
  (get_data_path (module := unit) (Path := PurePath) (Disk := gset string)
     "/proj/src/utils.py").
Local Abbreviation output_path_at :=
  (get_output_path (module := unit) (Path := PurePath) (Disk := gset string)
     "/proj/src/utils.py").
Local Abbreviation setup_at :=
  (setup_environment (module := unit) (Path := PurePath) (Disk := gset string)
     "/proj/src/utils.py").
Local Abbreviation fresh_interpreter :=
  {| sys_path := ["/usr/lib/python3"]; stdout := []; disk := (∅ : gset string) |}.

(** Colab detected through the variable in one process and through the
    loaded module in the other. *)
Lemma paths_follow_environment_witness :
  data_path_at {["COLAB_GPU" := "1"]} ∅ "loans.csv"
  = data_path_at ∅ {["google.colab" := tt]} "loans.csv"
  /\ output_path_at {["COLAB_GPU" := "1"]} ∅ "loans.csv" ∅
     = output_path_at ∅ {["google.colab" := tt]} "loans.csv" ∅.
Proof. apply paths_follow_environment. vm_compute. reflexivity. Defined.

(** A Kaggle kernel asking for an output file. *)
Lemma get_output_path_keeps_disk_witness :
  snd (output_path_at {["KAGGLE_KERNEL_RUN_TYPE" := "Batch"]} ∅
         "model.pkl" {["/kaggle"]})
  = {["/kaggle"]}.
Proof. apply get_output_path_keeps_disk. vm_compute. discriminate. Defined.

(** A local run asking for [loans.csv]. *)
Lemma filename_joined_to_directory_witness :
  data_path_at ∅ ∅ "loans.csv" = truediv (data_path_at ∅ ∅ "") "loans.csv"
  /\ fst (output_path_at ∅ ∅ "loans.csv" ∅)
     = truediv (fst (output_path_at ∅ ∅ "" ∅)) "loans.csv"
  /\ snd (output_path_at ∅ ∅ "loans.csv" ∅) = snd (output_path_at ∅ ∅ "" ∅).
Proof. apply filename_joined_to_directory. discriminate. Defined.

(** A Colab machine: the import path and the disk are left alone. *)
Lemma setup_environment_off_local_witness :
  sys_path (snd (setup_at {["COLAB_GPU" := "1"]} ∅ fresh_interpreter))
  = ["/usr/lib/python3"]
  /\ disk (snd (setup_at {["COLAB_GPU" := "1"]} ∅ fresh_interpreter)) = ∅.
Proof.
  apply (setup_environment_off_local "/proj/src/utils.py"
           {["COLAB_GPU" := "1"]} (∅ : gmap string unit) fresh_interpreter).
  vm_compute. discriminate.
Defined.

(** A local run with only the interpreter's library on [sys.path]: two
    calls put [/proj] there twice. *)
Lemma setup_environment_twice_inserts_twice_witness :
  sys_path (snd (setup_at ∅ ∅ (snd (setup_at ∅ ∅ fresh_interpreter))))
  = ["/proj"; "/proj"; "/usr/lib/python3"].
Proof.
  etrans.
  - apply (setup_environment_twice_inserts_twice "/proj/src/utils.py"
             ∅ (∅ : gmap string unit) fresh_interpreter).
    + vm_compute. reflexivity.
    + intros Hin. vm_compute in Hin. apply list_elem_of_singleton in Hin. discriminate.
    + vm_compute. discriminate.
  - vm_compute. reflexivity.
Defined.

End utils_paths_spec.

(* ===================================================================== *)
(** * Properties of the loan engine *)
(* ===================================================================== *)

Module financial_engine_spec.

Import financial_engine.

Local Open Scope Q_scope.

(** ** Booleans, validation and division *)

Lemma Qeq_bool_false (a b : Q) : ~ a == b -> Qeq_bool a b = false.
Proof.
  intros Hne. destruct (Qeq_bool a b) eqn:E; [|reflexivity].
  apply Qeq_bool_iff in E. contradiction.
Qed.

Lemma Qltb_false (a b : Q) : b <= a -> Qltb a b = false.
Proof.
  intros Hle. unfold Qltb. apply Qle_bool_iff in Hle. rewrite Hle. reflexivity.
Qed.

Lemma inject_Z_ge_1 (n : Z) : (1 <= n)%Z -> 1 <= inject_Z n.
Proof. intros Hn. change 1 with (inject_Z 1). rewrite <- Zle_Qle. exact Hn. Qed.


Lemma check_term_ok (periods : Z) : (1 <= periods)%Z -> check_term periods = Ok tt.
Proof.
  intros Hn. unfold check_term.
  destruct (Z.leb_spec periods 0); [lia | reflexivity].
Qed.

Lemma check_rate_ok (rate : Q) : 0 <= rate -> check_rate rate = Ok tt.
Proof. intros Hr. unfold check_rate. rewrite Qltb_false by exact Hr. reflexivity. Qed.

Lemma check_loan_ok (principal rate : Q) (periods : Z) :
  valid_loan principal rate periods -> check_loan principal rate periods = Ok tt.
Proof.
  intros (HP & Hr & Hn). unfold check_loan, check_principal.
  rewrite check_term_ok, check_rate_ok by assumption. simpl.
  rewrite Qltb_false by exact HP. reflexivity.
Qed.

Lemma qdiv_ok (a b : Q) : ~ b == 0 -> qdiv a b = Ok (a / b).
Proof. intros Hb. unfold qdiv. rewrite Qeq_bool_false by exact Hb. reflexivity. Qed.

(** A valid rate takes one of the two branches of every formula. *)
Lemma rate_branch (rate : Q) :
  0 <= rate ->
  (Qeq_bool rate 0 = true /\ rate == 0) \/ (Qeq_bool rate 0 = false /\ 0 < rate).
Proof.
  intros Hr. destruct (Qeq_bool rate 0) eqn:E.
  - left. split; [reflexivity|]. apply Qeq_bool_iff. exact E.
  - right. split; [reflexivity|]. apply Qeq_bool_neq in E. lra.
Qed.

(** ** Powers of the growth factor [1 + rate] *)

Section growth.

Variables (rate : Q) (periods : Z).
Hypothesis rate_pos : 0 < rate.
Hypothesis term_pos : (1 <= periods)%Z.

Lemma growth_gt_1 : 1 < (1 + rate) ^ periods.
Proof. apply Qpower_1_lt; [lra | lia]. Qed.

Lemma discount_inv : (1 + rate) ^ (- periods) == / (1 + rate) ^ periods.
Proof. apply Qpower_opp. Qed.

Lemma discount_lt_1 : (1 + rate) ^ (- periods) < 1.
Proof.
  rewrite discount_inv. pose proof growth_gt_1 as Hg.
  apply Qlt_shift_inv_r; lra.
Qed.


Lemma annuity_denominator : ~ 1 - (1 + rate) ^ (- periods) == 0.
Proof. pose proof discount_lt_1. lra. Qed.


End growth.

(** ** The operations return their values *)

Section valid.

Variables (principal rate : Q) (periods : Z).
Hypothesis loan_ok : valid_loan principal rate periods.

Lemma payment_denominator :
  if Qeq_bool rate 0 then ~ inject_Z periods == 0
  else ~ 1 - (1 + rate) ^ (- periods) == 0.
Proof.
  destruct loan_ok as (_ & Hr & Hn).
  destruct (rate_branch rate Hr) as [[-> _] | [-> Hpos]].
  - pose proof (inject_Z_ge_1 periods Hn). lra.
  - apply annuity_denominator; assumption.
Qed.

Lemma payment_returns :
  payment principal rate periods = Ok (payment_value principal rate periods).
Proof.
  unfold payment, payment_value. rewrite check_loan_ok by exact loan_ok. simpl.
  pose proof payment_denominator as Hd.
  destruct (Qeq_bool rate 0); apply qdiv_ok, Hd.
Qed.

Lemma remaining_balance_returns (period : Z) :
  remaining_balance principal rate period periods
  = Ok (balance_value principal rate periods period).
Proof.
  unfold remaining_balance, balance_value.
  rewrite check_loan_ok by exact loan_ok. simpl.
  rewrite payment_returns. simpl.
  destruct loan_ok as (_ & Hr & _).
  destruct (rate_branch rate Hr) as [[-> _] | [-> Hpos]]; [reflexivity|].
  rewrite qdiv_ok by lra. reflexivity.
Qed.

Lemma interest_payment_returns (period : Z) :
  interest_payment principal rate period periods
  = Ok (interest_value principal rate periods period).
Proof.
  unfold interest_payment, interest_value.
  rewrite check_loan_ok by exact loan_ok. simpl.
  destruct (Qeq_bool rate 0); [reflexivity|].
  rewrite remaining_balance_returns. reflexivity.
Qed.

Lemma principal_payment_returns (period : Z) :
  principal_payment principal rate period periods
  = Ok (principal_value principal rate periods period).
Proof.
  unfold principal_payment, principal_value.
  rewrite check_loan_ok by exact loan_ok. simpl.
  rewrite payment_returns. simpl.
  rewrite interest_payment_returns. reflexivity.
Qed.

Lemma table_row_returns (i : Z) :
  table_row principal rate periods i = Ok (row_value principal rate periods i).
Proof.
  unfold table_row, row_value.
  rewrite payment_returns. simpl.
  rewrite principal_payment_returns. simpl.
  rewrite interest_payment_returns. simpl.
  rewrite remaining_balance_returns. reflexivity.
Qed.

End valid.

(** ** Algebra of the values *)

Section values.

Variables (principal rate : Q) (periods : Z).
Hypothesis loan_ok : valid_loan principal rate periods.

Let pmt := payment_value principal rate periods.






End values.

(** ** Monotonicity at a positive rate *)

Section interest_bearing.

Variables (principal rate : Q) (periods : Z).
Hypothesis principal_pos : 0 < principal.
Hypothesis rate_pos : 0 < rate.
Hypothesis term_pos : (1 <= periods)%Z.

Let pmt := payment_value principal rate periods.







End interest_bearing.

(** ** The schedule *)

Lemma mapM_returns {A B : Type} (f : A -> result B) (g : A -> B) (l : list A) :
  (forall x, f x = Ok (g x)) -> mapM f l = Ok (g <$> l).
Proof.
  intros Hfg. induction l as [|x xs IH]; [reflexivity|].
  simpl. rewrite Hfg. simpl. rewrite IH. reflexivity.
Qed.

Lemma amortization_table_returns (principal rate : Q) (periods : Z) :
  valid_loan principal rate periods ->
  amortization_table principal rate periods
  = Ok (row_value principal rate periods <$> seqZ 1 periods).
Proof.
  intros Hok. unfold amortization_table. rewrite check_loan_ok by exact Hok.
  simpl. apply mapM_returns. intros i. apply table_row_returns. exact Hok.
Qed.



(** Discharges the side conditions of a concrete loan. *)
Ltac loan_numbers :=
  repeat match goal with
  | |- valid_loan _ _ _ => unfold valid_loan
  | |- _ /\ _ => split
  | |- (_ <= _)%Z => lia
  | |- (_ < _)%Z => lia
  | |- _ <= _ => apply Qle_bool_iff; vm_compute; reflexivity
  | |- _ < _ => apply Qlt_alt; vm_compute; reflexivity
  | |- _ == _ => apply Qeq_bool_iff; vm_compute; reflexivity
  end.

(** ** The claims *)











(** C4: at a zero rate [payment] returns [principal / periods], and the
    schedule has [periods] rows, each with that payment, no interest, and a
    principal portion equal to the payment. *)
Theorem zero_rate_straight_line (principal rate : Q) (periods : Z) :
  valid_loan principal rate periods ->
  rate == 0 ->
  payment principal rate periods = Ok (principal / inject_Z periods)
  /\ exists rows : list AmortizationRow,
      amortization_table principal rate periods = Ok rows
      /\ length rows = Z.to_nat periods
      /\ Forall (fun row =>
                  row_payment row == principal / inject_Z periods
                  /\ row_interest row == 0
                  /\ row_principal row == row_payment row) rows.
Proof.
  intros Hok Hzero. apply Qeq_bool_iff in Hzero.
  assert (Hpay : payment_value principal rate periods = principal / inject_Z periods)
    by (unfold payment_value; rewrite Hzero; reflexivity).
  split; [rewrite payment_returns by exact Hok; rewrite Hpay; reflexivity|].
  eexists. split; [apply amortization_table_returns; exact Hok|].
  split; [rewrite length_fmap, length_seqZ; reflexivity|].
  apply Forall_fmap, Forall_forall. intros i _. simpl.
  unfold principal_value, interest_value. rewrite Hzero, Hpay.
  split; [reflexivity | split; [reflexivity | ring]].
Qed.

(** The zero-rate test: 12000 over 12 periods pays exactly 1000. *)
Lemma zero_rate_straight_line_witness :
  (exists pmt : Q, payment 12000 0 12 = Ok pmt /\ pmt == 1000)
  /\ exists rows : list AmortizationRow,
      amortization_table 12000 0 12 = Ok rows
      /\ length rows = 12%nat
      /\ Forall (fun row =>
                  row_payment row == 1000
                  /\ row_interest row == 0
                  /\ row_principal row == row_payment row) rows.
Proof.
  assert (Hok : valid_loan 12000 0 12) by loan_numbers.
  assert (Hzero : 0 == 0) by reflexivity.
  destruct (zero_rate_straight_line 12000 0 12 Hok Hzero)
    as (Hpay & rows & Htable & Hlen & Hrows).
  split.
  - exists (12000 / inject_Z 12). split; [exact Hpay | reflexivity].
  - exists rows. split; [exact Htable|]. split; [exact Hlen|].
    eapply Forall_impl; [exact Hrows|].
    intros row (Hp & Hi & Hpp). repeat split; try assumption.
    rewrite Hp. reflexivity.
Defined.



End financial_engine_spec.

(* ===================================================================== *)
(** * The loan engine in binary64: where the tolerances fail *)
(* ===================================================================== *)

Module financial_engine_binary64_spec.

Import Floats.
Import financial_engine financial_engine_binary64.

Local Open Scope float_scope.

(** The float nearest to 0.01, the tolerance of the tests. *)
Local Abbreviation cent := 0x1.47ae147ae147bp-7.

(** The float nearest to 0.24, the highest rate of the tests. *)
Local Abbreviation rate_24 := 0x1.eb851eb851eb8p-3.








End financial_engine_binary64_spec.
